(** * App-Flotacion: the Streamlit predictor script [main.py]

    A shallow embedding of the script: Python values and exceptions, the
    global namespace the script reads, the widgets and messages it emits,
    the model cache, and the prediction block behind the button. *)

From Stdlib Require Import ZArith String Ascii List Bool Lia.
From Stdlib Require Import DecimalString.
From Stdlib Require Import Floats.PrimFloat Floats.FloatOps Floats.SpecFloat.
From stdpp Require Import gmap strings.

Set Warnings "-register-all,-inexact-float".

Local Open Scope string_scope.
Local Open Scope list_scope.
Local Open Scope Z_scope.

(** ** Python values *)

Module Py.

(** Heap addresses of objects (object identity). *)
Definition loc := nat.

(** The values the script handles: [None], numbers, strings, sequences
    (lists and arrays alike) and references to objects such as the model. *)
Inductive pyval : Type :=
| VNone
| VInt (n : Z)
| VFloat (x : float)
| VStr (s : string)
| VList (l : list pyval)
| VObj (l : loc).

(** The part of Python's exception hierarchy the script can meet, and
    classes derived from it by libraries. *)
Inductive pyclass : Type :=
| BaseException
| KeyboardInterrupt
| SystemExit
| Exception
| NameError
| AttributeError
| TypeError
| ValueError
| ArithmeticError
| OverflowError
| LookupError
| IndexError
| EOFError
| OSError
| FileNotFoundError
| Derived (name : string) (base : pyclass).

#[global] Instance pyclass_eq_dec : EqDecision pyclass.
Proof. solve_decision. Defined.

(** A class followed by its ancestors, as in [cls.__mro__]. *)
Fixpoint mro (c : pyclass) : list pyclass :=
  match c with
  | BaseException => [BaseException]
  | KeyboardInterrupt => [KeyboardInterrupt; BaseException]
  | SystemExit => [SystemExit; BaseException]
  | Exception => [Exception; BaseException]
  | NameError => [NameError; Exception; BaseException]
  | AttributeError => [AttributeError; Exception; BaseException]
  | TypeError => [TypeError; Exception; BaseException]
  | ValueError => [ValueError; Exception; BaseException]
  | ArithmeticError => [ArithmeticError; Exception; BaseException]
  | OverflowError => [OverflowError; ArithmeticError; Exception; BaseException]
  | LookupError => [LookupError; Exception; BaseException]
  | IndexError => [IndexError; LookupError; Exception; BaseException]
  | EOFError => [EOFError; Exception; BaseException]
  | OSError => [OSError; Exception; BaseException]
  | FileNotFoundError => [FileNotFoundError; OSError; Exception; BaseException]
  | Derived n b => Derived n b :: mro b
  end.

Definition issubclass (c t : pyclass) : bool := bool_decide (t ∈ mro c).

(** A raised exception: its class and [str(e)]. *)
Record exn : Type := Exn { exn_class : pyclass; exn_msg : string }.

Definition isinstance (e : exn) (t : pyclass) : bool := issubclass (exn_class e) t.

(** What evaluating an expression gives: a value or a raised exception. *)
Inductive result (A : Type) : Type :=
| Ok (a : A)
| Raise (e : exn).
Arguments Ok {A} a.
Arguments Raise {A} e.

(** [pd.DataFrame({...})]: the columns in insertion order, each a list of
    cells. *)
Definition dataframe := list (string * list pyval).

(** An object: its class name, its mutable state, and its [predict] method
    when it has one.  The method reads and may update the state. *)
Record object : Type := Object {
  obj_class : string;
  obj_state : pyval;
  obj_predict : option (pyval -> dataframe -> result pyval * pyval)
}.

End Py.
Import Py.

(** ** Formatting with [:.2f] *)

Module Fmt.

Definition digits (n : Z) : string := NilZero.string_of_uint (N.to_uint (Z.to_N n)).

Definition two_digits (n : Z) : string :=
  if (n <? 10)%Z then "0" +:+ digits n else digits n.

(** Hundredths nearest to [m * 2^e], ties to even: the correctly rounded
    decimal conversion [float.__format__] performs. *)
Definition round_hundredths (m : positive) (e : Z) : Z :=
  let num := if 0 <=? e then Z.pos m * 2 ^ e * 100 else Z.pos m * 100 in
  let den := if 0 <=? e then 1 else 2 ^ (- e) in
  let q := num / den in
  let r := num mod den in
  if (den <? 2 * r) || ((den =? 2 * r) && Z.odd q) then q + 1 else q.

Definition sign_str (s : bool) : string := if s then "-" else "".

Definition format_2f_SF (x : spec_float) : string :=
  match x with
  | S754_nan => "nan"
  | S754_infinity s => sign_str s +:+ "inf"
  | S754_zero s => sign_str s +:+ "0.00"
  | S754_finite s m e =>
      let h := round_hundredths m e in
      sign_str s +:+ digits (h / 100) +:+ "." +:+ two_digits (h mod 100)
  end.

(** [int.__float__]: the nearest binary64 value. *)
Definition float_of_int (n : Z) : spec_float := binary_normalize prec emax n 0 false.

(** [format(v, ".2f")] by the type of [v]; [cls] is the class name when
    [v] is an object. *)
Definition format_2f (cls : string) (v : pyval) : result string :=
  match v with
  | VFloat x => Ok (format_2f_SF (Prim2SF x))
  | VInt n =>
      match float_of_int n with
      | S754_infinity _ => Raise (Exn OverflowError "int too large to convert to float")
      | x => Ok (format_2f_SF x)
      end
  | VStr _ => Raise (Exn ValueError "Unknown format code 'f' for object of type 'str'")
  | VNone => Raise (Exn TypeError "unsupported format string passed to NoneType.__format__")
  | VList _ => Raise (Exn TypeError "unsupported format string passed to list.__format__")
  | VObj _ => Raise (Exn TypeError ("unsupported format string passed to " +:+ cls +:+ ".__format__"))
  end.

End Fmt.

(** ** The script's world: interface elements, cache, heap *)

Module UI.

(** Where an element is drawn: the page, [st.sidebar] or an
    [st.expander]. *)
Inductive container : Type :=
| Main
| Sidebar
| Expander (label : string).

(** The Streamlit calls of the script, with their arguments. *)
Inductive element : Type :=
| PageConfig (page_title page_icon layout : string)
| Header (body : string)
| Markdown (body : string)
| Caption (body : string)
| Title (body : string)
| Subheader (body : string)
| Success (body : string)
| Info (body : string)
| Error (body : string)
| Warning (body : string)
| Divider
| Slider (label : string) (min_value max_value value step : pyval)
| Button (label type : string).

End UI.
Import UI.

(** What a script run can touch.  [ui] is the page drawn so far; [cache]
    is the store behind [st.cache_resource] for [load_model], keyed by the
    argument; [heap] holds the objects, an object's address being its
    index; [loads] lists the paths [joblib.load] was called on and [calls]
    the invocations of a [predict] method. *)
Record state : Type := State {
  ui : list (container * element);
  cache : gmap string pyval;
  heap : list object;
  loads : list string;
  calls : list (loc * dataframe)
}.

Definition set_ui (f : list (container * element) -> list (container * element)) (s : state) : state :=
  State (f (ui s)) (cache s) (heap s) (loads s) (calls s).
Definition set_cache (f : gmap string pyval -> gmap string pyval) (s : state) : state :=
  State (ui s) (f (cache s)) (heap s) (loads s) (calls s).
Definition set_heap (f : list object -> list object) (s : state) : state :=
  State (ui s) (cache s) (f (heap s)) (loads s) (calls s).
Definition set_loads (f : list string -> list string) (s : state) : state :=
  State (ui s) (cache s) (heap s) (f (loads s)) (calls s).
Definition set_calls (f : list (loc * dataframe) -> list (loc * dataframe)) (s : state) : state :=
  State (ui s) (cache s) (heap s) (loads s) (f (calls s)).

(** A process that has just started: nothing drawn, cached or loaded. *)
Definition fresh_state : state := State [] ∅ [] [] [].

(** ** Statements: state passing with exceptions *)

Definition M (A : Type) : Type := state -> result A * state.

Definition ret {A} (a : A) : M A := fun s => (Ok a, s).

Definition raise {A} (e : exn) : M A := fun s => (Raise e, s).

Definition bind {A B} (c : M A) (k : A -> M B) : M B :=
  fun s =>
    match c s with
    | (Ok a, s') => k a s'
    | (Raise e, s') => (Raise e, s')
    end.

Declare Scope py_scope.
Delimit Scope py_scope with py.
Notation "x <- c ;; k" := (bind c (fun x => k))
  (at level 100, c at next level, right associativity) : py_scope.
Notation "c ;; k" := (bind c (fun _ => k))
  (at level 100, right associativity) : py_scope.
Local Open Scope py_scope.

(** [try: body  except cls as e: handler e]. *)
Definition try_except {A} (body : M A) (cls : pyclass) (handler : exn -> M A) : M A :=
  fun s =>
    match body s with
    | (Raise e, s') => if isinstance e cls then handler e s' else (Raise e, s')
    | r => r
    end.

(** Reading a global name; an unbound one raises [NameError]. *)
Definition read_name (g : gmap string pyval) (x : string) : M pyval :=
  match g !! x with
  | Some v => ret v
  | None => raise (Exn NameError ("name '" +:+ x +:+ "' is not defined"))
  end.

Definition emit (c : container) (el : element) : M unit :=
  fun s => (Ok tt, set_ui (fun u => u ++ [(c, el)]) s).

(** [type(v).__name__]. *)
Definition class_name (h : list object) (v : pyval) : string :=
  match v with
  | VNone => "NoneType"
  | VInt _ => "int"
  | VFloat _ => "float"
  | VStr _ => "str"
  | VList _ => "list"
  | VObj l => match h !! l with Some o => obj_class o | None => "object" end
  end.

(** ** The outside: model file, widgets *)

(** What [joblib.load] finds at a path: a pickled object, pickled plain
    data, or a failure.  A pickled object is rebuilt as a new object at
    every deserialization. *)
Inductive stored : Type :=
| SObject (o : object)
| SValue (v : pyval).

Definition disk := string -> result stored.

(** The widget values of one interaction: the three slider positions and
    whether the button was clicked. *)
Record session : Type := Session {
  amina : float;
  air : float;
  iron : float;
  pressed : bool
}.

(** [joblib.load(path)]. *)
Definition joblib_load (d : disk) (path : string) : M pyval :=
  fun s =>
    let s1 := set_loads (fun l => l ++ [path]) s in
    match d path with
    | Raise e => (Raise e, s1)
    | Ok (SValue v) => (Ok v, s1)
    | Ok (SObject o) => (Ok (VObj (length (heap s1))), set_heap (fun h => h ++ [o]) s1)
    end.

(** The exception Streamlit raises on a wrong call, a subclass of
    [Exception]. *)
Definition StreamlitAPIException : pyclass := Derived "StreamlitAPIException" Exception.

Definition is_int (v : pyval) : bool := match v with VInt _ => true | _ => false end.

Definition is_float (v : pyval) : bool := match v with VFloat _ => true | _ => false end.

Definition newline : string := String (ascii_of_nat 10) "".

(** What [st.slider] raises when [min_value], [max_value] and [step] are
    neither all [int] nor all [float]. *)
Definition slider_types_error (h : list object) (min_value max_value step : pyval) : exn :=
  Exn StreamlitAPIException
    ("Slider value arguments must be of matching types."
     +:+ newline +:+ "`min_value` has " +:+ class_name h min_value +:+ " type."
     +:+ newline +:+ "`max_value` has " +:+ class_name h max_value +:+ " type."
     +:+ newline +:+ "`step` has " +:+ class_name h step +:+ " type.").

(** [st.slider(...)], Streamlit's.  It takes [min_value], [max_value] and
    [step] all [int] or all [float] and raises otherwise, before the
    widget exists; with matching arguments it draws the slider and returns
    its position in the session.  Its later checks (the type of [value],
    the numbers a browser can hold) come after this one and are reached by
    no call of the script. *)
Definition st_slider (c : container) (label : string)
    (min_value max_value value step position : pyval) : M pyval :=
  fun s =>
    if (is_int min_value && is_int max_value && is_int step)
       || (is_float min_value && is_float max_value && is_float step)
    then (emit c (Slider label min_value max_value value step) ;; ret position) s
    else (Raise (slider_types_error (heap s) min_value max_value step), s).

(** [st.button(...)] draws the button and returns whether it was
    clicked. *)
Definition st_button (c : container) (label type : string) (clicked : bool) : M bool :=
  emit c (Button label type) ;; ret clicked.

(** ** [load_model] *)

(** Modelled from the spec: the decorator [st.cache_resource] is Streamlit's
    and not part of the repository.  By the spec the result of a load is
    cached for the process lifetime and computed at most once regardless of
    call count: a call whose argument has an entry returns the entry, any
    other call runs the function and, when it returns, stores the result. *)
Definition cache_resource (f : string -> M pyval) (arg : string) : M pyval :=
  fun s =>
    match cache s !! arg with
    | Some v => (Ok v, s)
    | None =>
        match f arg s with
        | (Ok v, s') => (Ok v, set_cache (fun m => <[arg := v]> m) s')
        | r => r
        end
    end.

(** The body of [load_model] (lines 18-25). *)
Definition load_model_body (d : disk) (model_path : string) : M pyval :=
  try_except
    (model <- joblib_load d model_path ;; ret model)
    FileNotFoundError
    (fun _ =>
       emit Main (Error ("Error: No se encontró el archivo del modelo en " +:+ model_path
                         +:+ ". Asegúrate de que el archivo del modelo esté en el directorio correcto.")) ;;
       ret VNone).

(** [load_model] as decorated (line 17). *)
Definition load_model (d : disk) (model_path : string) : M pyval :=
  cache_resource (load_model_body d) model_path.

(** ** The prediction block *)

(** [pd.DataFrame({...})] of lines 85-89, once its three cells are
    evaluated. *)
Definition df_input_of (a f c : pyval) : dataframe :=
  [("Amina Flow", [a]); ("Flotation Column 01 Air Flow", [f]); ("% Iron Concentrate", [c])].

(** Lines 85-89: the names are read in the order of the dict display. *)
Definition build_df_input (g : gmap string pyval) : M dataframe :=
  a <- read_name g "Flowrate1" ;;
  f <- read_name g "Flowrate2" ;;
  c <- read_name g "Concentration" ;;
  ret (df_input_of a f c).

(** [model.predict(df)]: the attribute is looked up, then the method runs
    on the object's state, which it may replace. *)
Definition call_predict (model : pyval) (df : dataframe) : M pyval :=
  fun s =>
    let no_attr := Exn AttributeError
      ("'" +:+ class_name (heap s) model +:+ "' object has no attribute 'predict'") in
    match model with
    | VObj l =>
        match heap s !! l with
        | Some o =>
            match obj_predict o with
            | Some p =>
                let '(r, st) := p (obj_state o) df in
                (r, set_calls (fun c => c ++ [(l, df)])
                      (set_heap (fun h => <[l := Object (obj_class o) st (obj_predict o)]> h) s))
            | None => (Raise no_attr, s)
            end
        | None => (Raise no_attr, s)
        end
    | _ => (Raise no_attr, s)
    end.

(** The first byte of a string with its continuation bytes: one UTF-8
    character. *)
Fixpoint continuation (s : string) : string :=
  match s with
  | String a r =>
      if (128 <=? Z.of_N (N_of_ascii a)) && (Z.of_N (N_of_ascii a) <? 192)
      then String a (continuation r) else ""
  | EmptyString => ""
  end.

(** [v[0]] in a heap [h]. *)
Definition getitem0 (h : list object) (v : pyval) : result pyval :=
  match v with
  | VList (x :: _) => Ok x
  | VList [] => Raise (Exn IndexError "list index out of range")
  | VStr (String a r) => Ok (VStr (String a (continuation r)))
  | VStr EmptyString => Raise (Exn IndexError "string index out of range")
  | _ => Raise (Exn TypeError ("'" +:+ class_name h v +:+ "' object is not subscriptable"))
  end.

Definition subscript0 (v : pyval) : M pyval :=
  fun s => (getitem0 (heap s) v, s).

(** [f"{x:.2f}"]. *)
Definition format_spec_2f (x : pyval) : M string :=
  fun s => (Fmt.format_2f (class_name (heap s) x) x, s).

(** Lines 92-99: the guarded region. *)
Definition guarded_predict (g : gmap string pyval) (df_input : dataframe) : M unit :=
  try_except
    (model <- read_name g "model" ;;
     concentration_value <- call_predict model df_input ;;
     emit Main (Subheader "📈 Resultado de la Predicción") ;;
     first <- subscript0 concentration_value ;;
     txt <- format_spec_2f first ;;
     emit Main (Success ("**Concentración Predicha:** `" +:+ txt +:+ "%`")) ;;
     emit Main (Info "Este valor representa el porcentaje estimado de la concentración final de silice."))
    Exception
    (fun e => emit Main (Error ("Ocurrió un error durante la predicción: " +:+ exn_msg e))).

(** Lines 85-99: what runs when the button is clicked. *)
Definition prediction_block (g : gmap string pyval) : M unit :=
  df_input <- build_df_input g ;;
  guarded_predict g df_input.

(** ** The script *)

(** Lines 31-65: the sidebar.  Each slider's result is assigned to a name
    of the global namespace, which is returned. *)
Definition sidebar (inp : session) (g : gmap string pyval) : M (gmap string pyval) :=
  emit Sidebar (Header "⚙️ Parámetros de Entrada") ;;
  emit Sidebar (Markdown "
    Ajusta los deslizadores para que coincidan con los parámetros operativos del proceso de flotación.
    ") ;;
  flowrate1 <- st_slider Sidebar "Caudal de Amina (m³/s)"
                 (VFloat 241.7) (VFloat 739.3) (VFloat 488.43) (VInt 1) (VFloat (amina inp)) ;;
  let g := <["flowrate1" := flowrate1]> g in
  emit Sidebar (Caption "El flujo de amina tiene una relación directamente proporcional con la flotación de sílice: a mayor dosificación, más partículas de sílice se colectan y flotan, aumentando su recuperación en el concentrado.") ;;
  Flowrate2 <- st_slider Sidebar "Caudal de aire en la columna de flotación 01 (m³/s)"
                 (VFloat 175.85) (VFloat 372.44) (VFloat 200.13) (VInt 1) (VFloat (air inp)) ;;
  let g := <["Flowrate2" := Flowrate2]> g in
  emit Sidebar (Caption "La relación entre el flujo de aire y la concentración final de sílice es inversa, porque al aumentar el aire se favorece la flotación y, por tanto, disminuye la sílice en el concentrado.") ;;
  concentration <- st_slider Sidebar "Concentración de hierro (%)"
                     (VFloat 62.51) (VFloat 68.01) (VFloat 65.04) (VInt 1) (VFloat (iron inp)) ;;
  let g := <["concentration" := concentration]> g in
  emit Sidebar (Caption "El % de hierro es inversamente proporcional al % de sílice; cuando sube la concentración de hierro, baja el silice") ;;
  ret g.

(** Lines 68-76. *)
Definition page_head : M unit :=
  emit Main (Title "🧪 Predictor de Concentración de Silice") ;;
  emit Main (Markdown "
¡Bienvenido! Esta aplicación utiliza un modelo de machine learning para predecir la concentración final de silice en columnas de flotación basándose en parámetros operativos clave.

**Esta herramienta puede ayudar a los ingenieros de procesos y operadores a:**
- **Optimizar** las condiciones de operación para disminuir la concentración final de silice.
- **Predecir** el impacto de los cambios en el proceso antes de implementarlos.
- **Solucionar** problemas potenciales simulando diferentes escenarios.
").

(** Lines 80-101. *)
Definition prediction_logic (inp : session) (g : gmap string pyval) : M unit :=
  model <- read_name g "model" ;;
  match model with
  | VNone =>
      emit Main (Warning "El modelo no pudo ser cargado. Por favor, verifica la ruta del archivo del modelo.")
  | _ =>
      clicked <- st_button Main "🚀 Predecir Concentración" "primary" (pressed inp) ;;
      if clicked then prediction_block g else ret tt
  end.

(** Lines 103-119. *)
Definition page_foot : M unit :=
  emit Main Divider ;;
  emit (Expander "ℹ️ Sobre la Aplicación") (Markdown "
    **¿Cómo funciona?**

    1.  **Datos de Entrada:** Proporcionas los parámetros operativos clave usando los deslizadores en la barra lateral.
    2.  **Predicción:** El modelo de machine learning pre-entrenado recibe estas entradas y las analiza basándose en los patrones que aprendió de datos históricos.
    3.  **Resultado:** La aplicación muestra la concentración final de silice predicho como un porcentaje.

    **Detalles del Modelo:**

    * **Tipo de Modelo:** `Regression Model` (XGBoost Optimizado)
    * **Propósito:** Predecir la concentración final de silice.
    * **Características Usadas:** Caudal de Amina, Caudal de aire en la columan de flotación 01 y % de concentración de Hierro .
    ").

(** One run of [main.py], top to bottom.  The names bound by the imports
    and by [def] ([joblib], [st], [pd], [load_model]) are not data and
    stay out of the namespace [g]; none of them is a name the prediction
    block reads. *)
Definition script (d : disk) (inp : session) : M unit :=
  emit Main (PageConfig "Predictor de Calidad de Concentración de silice" "🧪" "wide") ;;
  model <- load_model d "modelo.joblib" ;;
  let g : gmap string pyval := <["model" := model]> ∅ in
  g <- sidebar inp g ;;
  page_head ;;
  prediction_logic inp g ;;
  page_foot.

(** A namespace holding the four names the script assigns (lines 28, 38,
    48 and 58): [model] and a value for each slider. *)
Definition script_globals (inp : session) (model : pyval) : gmap string pyval :=
  <["concentration" := VFloat (iron inp)]>
    (<["Flowrate2" := VFloat (air inp)]>
       (<["flowrate1" := VFloat (amina inp)]>
          (<["model" := model]> ∅))).

(** ** Stub models *)

(** A model whose [predict] returns [out] whatever the input. *)
Definition stub_returning (out : pyval) : object :=
  Object "Stub" VNone (Some (fun st _ => (Ok out, st))).

(** A model whose [predict] raises [e]. *)
Definition stub_raising (e : exn) : object :=
  Object "Stub" VNone (Some (fun st _ => (Raise e, st))).

(** A model that counts its calls in its state and returns the count. *)
Definition stub_counting : object :=
  Object "Counter" (VInt 0)
    (Some (fun st _ =>
             match st with
             | VInt n => (Ok (VList [VInt (n + 1)]), VInt (n + 1))
             | _ => (Ok (VList [VInt 0]), st)
             end)).

(** A disk with one file, [path], whose load gives [r]; every other path
    is missing. *)
Definition disk_with (path : string) (r : result stored) : disk :=
  fun p => if String.eqb p path then r
           else Raise (Exn FileNotFoundError ("[Errno 2] No such file or directory: '" +:+ p +:+ "'")).

(** The sliders at their initial values. *)
Definition defaults (clicked : bool) : session := Session 488.43 200.13 65.04 clicked.

(** ** Notions used in the statements *)

(** The message of line 24. *)
Definition not_found_message (model_path : string) : string :=
  "Error: No se encontró el archivo del modelo en " +:+ model_path
  +:+ ". Asegúrate de que el archivo del modelo esté en el directorio correcto.".

(** The elements the script draws, by name. *)
Definition page_config : container * element :=
  (Main, PageConfig "Predictor de Calidad de Concentración de silice" "🧪" "wide").

Definition predict_button : container * element :=
  (Main, Button "🚀 Predecir Concentración" "primary").

Definition load_warning : container * element :=
  (Main, Warning "El modelo no pudo ser cargado. Por favor, verifica la ruta del archivo del modelo.").

(** The exception Python raises on reading [Flowrate1]. *)
Definition unbound_Flowrate1 : exn := Exn NameError "name 'Flowrate1' is not defined".

(** What the first slider of the script raises (line 38): [float] bounds
    with the [int] step 1. *)
Definition amina_slider_error : exn :=
  slider_types_error [] (VFloat 241.7) (VFloat 739.3) (VInt 1).

(** What the sidebar draws before its first slider (lines 32-35). *)
Definition sidebar_drawn : list (container * element) :=
  [(Sidebar, Header "⚙️ Parámetros de Entrada");
   (Sidebar, Markdown "
    Ajusta los deslizadores para que coincidan con los parámetros operativos del proceso de flotación.
    ")].


(** The state after [predict] ran on object [l] and left it in state [st]. *)
Definition after_call (l : loc) (o : object) (st : pyval) (df : dataframe) (s : state) : state :=
  set_calls (fun c => c ++ [(l, df)])
    (set_heap (fun h => <[l := Object (obj_class o) st (obj_predict o)]> h) s).

Definition prediction_error (e : exn) : container * element :=
  (Main, Error ("Ocurrió un error durante la predicción: " +:+ exn_msg e)).

Definition result_heading : container * element :=
  (Main, Subheader "📈 Resultado de la Predicción").

Definition result_success (txt : string) : container * element :=
  (Main, Success ("**Concentración Predicha:** `" +:+ txt +:+ "%`")).

Definition result_info : container * element :=
  (Main, Info "Este valor representa el porcentaje estimado de la concentración final de silice.").

(** A model file holding a stub that returns [out]. *)
Definition stub_disk (out : pyval) : disk :=
  disk_with "modelo.joblib" (Ok (SObject (stub_returning out))).

(** Whether a page holds an element of a given kind. *)
Definition shows_success (u : list (container * element)) : bool :=
  existsb (fun ce => match snd ce with Success _ => true | _ => false end) u.

Definition shows_error (u : list (container * element)) : bool :=
  existsb (fun ce => match snd ce with Error _ => true | _ => false end) u.

Definition shows_warning (u : list (container * element)) : bool :=
  existsb (fun ce => match snd ce with Warning _ => true | _ => false end) u.

Definition shows_button (u : list (container * element)) : bool :=
  existsb (fun ce => match snd ce with Button _ _ => true | _ => false end) u.

(** Every combination of the bounds of the three sliders, button clicked. *)
Definition boundary_sessions : list session :=
  a ← [241.7; 739.3]%float; f ← [175.85; 372.44]%float; c ← [62.51; 68.01]%float;
  [Session a f c true].

(** What unpickling a truncated file raises. *)
Definition truncated_pickle : exn := Exn EOFError "Ran out of input".

(** The model file is there and truncated. *)
Definition corrupt_disk : disk := disk_with "modelo.joblib" (Raise truncated_pickle).

(** [n] calls of [load_model] on the same path, one after the other. *)
Fixpoint load_repeatedly (d : disk) (path : string) (n : nat) : M (list pyval) :=
  match n with
  | O => ret []
  | S n' =>
      v <- load_model d path ;;
      vs <- load_repeatedly d path n' ;;
      ret (v :: vs)
  end.

(** A state holding the objects [h] and nothing else. *)
Definition bare (h : list object) : state := State [] ∅ h [] [].

(** A statement is [framed] when its result and its effects are those of
    running it on the heap alone: it reads nothing but the heap, leaves
    [cache] and [loads] as they are, and only appends to [ui] and
    [calls]. *)
Definition framed {A} (c : M A) : Prop :=
  forall s,
    c s =
    (fst (c (bare (heap s))),
     State (ui s ++ ui (snd (c (bare (heap s))))) (cache s) (heap (snd (c (bare (heap s)))))
       (loads s) (calls s ++ calls (snd (c (bare (heap s)))))).

(** Every [predict] method in the heap leaves the state of its object as
    it found it: the models are immutable once loaded. *)
Definition read_only_heap (h : list object) : Prop :=
  forall l o p df,
    h !! l = Some o -> obj_predict o = Some p -> snd (p (obj_state o) df) = obj_state o.

(** A statement that, on a heap of immutable models, leaves the heap as it
    is. *)
Definition heap_stable {A} (c : M A) : Prop :=
  forall s, read_only_heap (heap s) -> heap (snd (c s)) = heap s.

(** A namespace in which the three names the block reads are bound. *)
Definition bound_globals (a f c : float) (model : pyval) : gmap string pyval :=
  <["Concentration" := VFloat c]>
    (<["Flowrate2" := VFloat f]>
       (<["Flowrate1" := VFloat a]>
          (<["model" := model]> ∅))).

(** What [load_model] draws: the error message, on the first load of a
    missing file. *)
Definition load_drawn (d : disk) (path : string) (s : state) : list (container * element) :=
  match cache s !! path, d path with
  | None, Raise e =>
      if isinstance e FileNotFoundError then [(Main, Error (not_found_message path))] else []
  | _, _ => []
  end.

(** The [predict] attribute of a value, when it has one. *)
Definition predict_method (h : list object) (v : pyval) :
    option (pyval -> dataframe -> result pyval * pyval) :=
  match v with
  | VObj l => match h !! l with Some o => obj_predict o | None => None end
  | _ => None
  end.

(** What reading [model.predict] raises on a value without the
    attribute. *)
Definition no_predict_attribute (h : list object) (v : pyval) : exn :=
  Exn AttributeError ("'" +:+ class_name h v +:+ "' object has no attribute 'predict'").

(** * Properties *)

(** ** Statements step by step *)

Lemma bind_ok {A B} (c : M A) (k : A -> M B) s a s' :
  c s = (Ok a, s') -> bind c k s = k a s'.
Proof. intros H. unfold bind. now rewrite H. Qed.

Lemma bind_raise {A B} (c : M A) (k : A -> M B) s e s' :
  c s = (Raise e, s') -> bind c k s = (Raise e, s').
Proof. intros H. unfold bind. now rewrite H. Qed.

Lemma emit_run c el s : emit c el s = (Ok tt, set_ui (fun u => u ++ [(c, el)]) s).
Proof. reflexivity. Qed.

Lemma heap_set_ui f s : heap (set_ui f s) = heap s.
Proof. reflexivity. Qed.

Lemma read_name_bound g x v s : g !! x = Some v -> read_name g x s = (Ok v, s).
Proof. intros H. unfold read_name. now rewrite H. Qed.

Lemma read_name_unbound g x s :
  g !! x = None ->
  read_name g x s = (Raise (Exn NameError ("name '" +:+ x +:+ "' is not defined")), s).
Proof. intros H. unfold read_name. now rewrite H. Qed.

(** ** A namespace of the assigned names *)

Lemma script_globals_model inp v : script_globals inp v !! "model" = Some v.
Proof. unfold script_globals. now simplify_map_eq. Qed.

Lemma script_globals_Flowrate1 inp v : script_globals inp v !! "Flowrate1" = None.
Proof. unfold script_globals. now simplify_map_eq. Qed.

Lemma script_globals_Concentration inp v : script_globals inp v !! "Concentration" = None.
Proof. unfold script_globals. now simplify_map_eq. Qed.

Lemma script_globals_Flowrate2 inp v : script_globals inp v !! "Flowrate2" = Some (VFloat (air inp)).
Proof. unfold script_globals. now simplify_map_eq. Qed.

(** In a namespace of the assigned names the block stops at its first
    name. *)
Lemma build_df_input_script inp v s :
  build_df_input (script_globals inp v) s = (Raise unbound_Flowrate1, s).
Proof.
  unfold build_df_input.
  apply bind_raise. apply (read_name_unbound _ "Flowrate1"), script_globals_Flowrate1.
Qed.

Lemma prediction_block_script inp v s :
  prediction_block (script_globals inp v) s = (Raise unbound_Flowrate1, s).
Proof. unfold prediction_block. apply bind_raise, build_df_input_script. Qed.

(** ** The sliders *)

(** The sidebar stops at its first slider. *)
Lemma sidebar_run inp g s :
  sidebar inp g s = (Raise amina_slider_error, set_ui (fun u => u ++ sidebar_drawn) s).
Proof.
  destruct s as [u c h l k]. unfold sidebar, st_slider, bind, emit, ret, set_ui; cbn.
  now rewrite <- app_assoc.
Qed.

Example amina_slider_error_message :
  exn_msg amina_slider_error =
  "Slider value arguments must be of matching types.
`min_value` has float type.
`max_value` has float type.
`step` has int type."
  /\ isinstance amina_slider_error Exception = true.
Proof. split; reflexivity. Qed.

(** With a [float] step the same call draws the slider and returns the
    position. *)
Example slider_with_float_step :
  st_slider Sidebar "Caudal de Amina (m³/s)" (VFloat 241.7) (VFloat 739.3) (VFloat 488.43)
    (VFloat 1) (VFloat 500) fresh_state =
  (Ok (VFloat 500),
   State [(Sidebar, Slider "Caudal de Amina (m³/s)" (VFloat 241.7) (VFloat 739.3)
                      (VFloat 488.43) (VFloat 1))] ∅ [] [] []).
Proof. reflexivity. Qed.

(** ** [load_model], case by case *)

Lemma load_model_body_cases d p s :
  load_model_body d p s =
  match d p with
  | Ok (SObject o) =>
      (Ok (VObj (length (heap s))),
       State (ui s) (cache s) (heap s ++ [o]) (loads s ++ [p]) (calls s))
  | Ok (SValue v) =>
      (Ok v, State (ui s) (cache s) (heap s) (loads s ++ [p]) (calls s))
  | Raise e =>
      if isinstance e FileNotFoundError
      then (Ok VNone,
            State (ui s ++ [(Main, Error (not_found_message p))]) (cache s) (heap s)
              (loads s ++ [p]) (calls s))
      else (Raise e, State (ui s) (cache s) (heap s) (loads s ++ [p]) (calls s))
  end.
Proof.
  unfold load_model_body, try_except, bind, joblib_load.
  destruct (d p) as [[o | v] | e]; reflexivity.
Qed.

Lemma load_model_hit d p s v : cache s !! p = Some v -> load_model d p s = (Ok v, s).
Proof. intros H. unfold load_model, cache_resource. now rewrite H. Qed.

Lemma load_model_miss d p s :
  cache s !! p = None ->
  load_model d p s =
  match load_model_body d p s with
  | (Ok v, s') => (Ok v, set_cache (fun m => <[p := v]> m) s')
  | r => r
  end.
Proof. intros H. unfold load_model, cache_resource. now rewrite H. Qed.

Lemma load_model_calls d p s : calls (snd (load_model d p s)) = calls s.
Proof.
  destruct (cache s !! p) as [v |] eqn:Hc.
  - now rewrite (load_model_hit _ _ _ v).
  - rewrite load_model_miss, load_model_body_cases by auto.
    destruct (d p) as [[o | v] | e]; cbn; auto.
    destruct (isinstance e FileNotFoundError); auto.
Qed.

Lemma load_model_cases d p s :
  load_model d p s =
  match cache s !! p with
  | Some v => (Ok v, s)
  | None =>
      match d p with
      | Ok (SObject o) =>
          (Ok (VObj (length (heap s))),
           State (ui s) (<[p := VObj (length (heap s))]> (cache s)) (heap s ++ [o])
             (loads s ++ [p]) (calls s))
      | Ok (SValue v) =>
          (Ok v, State (ui s) (<[p := v]> (cache s)) (heap s) (loads s ++ [p]) (calls s))
      | Raise e =>
          if isinstance e FileNotFoundError
          then (Ok VNone,
                State (ui s ++ [(Main, Error (not_found_message p))])
                  (<[p := VNone]> (cache s)) (heap s) (loads s ++ [p]) (calls s))
          else (Raise e, State (ui s) (cache s) (heap s) (loads s ++ [p]) (calls s))
      end
  end.
Proof.
  destruct (cache s !! p) as [v |] eqn:Hc.
  - now apply load_model_hit.
  - rewrite load_model_miss, load_model_body_cases by exact Hc.
    destruct (d p) as [[o | v] | e]; try reflexivity.
    destruct (isinstance e FileNotFoundError); reflexivity.
Qed.

Lemma load_model_ui d p s : ui (snd (load_model d p s)) = ui s ++ load_drawn d p s.
Proof.
  rewrite load_model_cases. unfold load_drawn.
  destruct (cache s !! p) as [v |]; cbn; [now rewrite app_nil_r |].
  destruct (d p) as [[o | v] | e]; cbn; try now rewrite app_nil_r.
  destruct (isinstance e FileNotFoundError); cbn; [reflexivity | now rewrite app_nil_r].
Qed.

(** Loading after something was drawn: the same load, drawn after it. *)
Lemma load_model_set_ui d p f s :
  load_model d p (set_ui f s) =
  (fst (load_model d p s),
   set_ui (fun _ => f (ui s) ++ load_drawn d p s) (snd (load_model d p s))).
Proof.
  rewrite !load_model_cases. unfold load_drawn. destruct s as [u c h l k]; cbn.
  destruct (c !! p) as [v |]; cbn; [unfold set_ui; cbn; now rewrite app_nil_r |].
  destruct (d p) as [[o | v] | e]; cbn; unfold set_ui; cbn; try now rewrite app_nil_r.
  destruct (isinstance e FileNotFoundError); cbn; [reflexivity | now rewrite app_nil_r].
Qed.

Lemma load_model_cached_after d p s v :
  fst (load_model d p s) = Ok v -> cache (snd (load_model d p s)) !! p = Some v.
Proof.
  rewrite load_model_cases.
  destruct (cache s !! p) as [c |] eqn:Hc; cbn.
  - intros H. inversion H; subst c. exact Hc.
  - destruct (d p) as [[o | x] | e]; cbn.
    + intros H. inversion H. apply lookup_insert_eq.
    + intros H. inversion H. apply lookup_insert_eq.
    + destruct (isinstance e FileNotFoundError); cbn; intros H; inversion H.
      apply lookup_insert_eq.
Qed.

(** ** One run, in full *)

Lemma script_unfold d inp s :
  script d inp s =
  match load_model d "modelo.joblib" (set_ui (fun u => u ++ [page_config]) s) with
  | (Ok v, s1) => (Raise amina_slider_error, set_ui (fun u => u ++ sidebar_drawn) s1)
  | (Raise e, s1) => (Raise e, s1)
  end.
Proof.
  unfold script. rewrite (bind_ok _ _ _ tt _ (emit_run _ _ _)). fold page_config.
  unfold bind at 1.
  destruct (load_model d "modelo.joblib" _) as [[v | e] s1]; auto.
  unfold bind at 1. rewrite sidebar_run. reflexivity.
Qed.

(** A run of the script: how it ends and what is left, from what
    [load_model] does at its call. *)
Lemma script_run d inp s :
  script d inp s =
  match fst (load_model d "modelo.joblib" s) with
  | Ok v =>
      (Raise amina_slider_error,
       set_ui (fun _ => ui s ++ [page_config] ++ load_drawn d "modelo.joblib" s
                          ++ sidebar_drawn)
         (snd (load_model d "modelo.joblib" s)))
  | Raise e =>
      (Raise e,
       set_ui (fun _ => ui s ++ [page_config] ++ load_drawn d "modelo.joblib" s)
         (snd (load_model d "modelo.joblib" s)))
  end.
Proof.
  rewrite script_unfold, load_model_set_ui.
  destruct (load_model d "modelo.joblib" s) as [[v | e] [u c h l k]]; cbn [fst snd].
  - unfold set_ui; cbn. now rewrite <- !app_assoc.
  - unfold set_ui; cbn. now rewrite <- !app_assoc.
Qed.

Lemma load_drawn_kinds d p s :
  shows_success (load_drawn d p s) = false
  /\ shows_button (load_drawn d p s) = false
  /\ shows_warning (load_drawn d p s) = false.
Proof.
  unfold load_drawn. destruct (cache s !! p); [now cbn |].
  destruct (d p) as [x | e]; [now cbn |].
  destruct (isinstance e FileNotFoundError); now cbn.
Qed.

Lemma prediction_logic_None inp g s :
  g !! "model" = Some VNone ->
  prediction_logic inp g s = (Ok tt, set_ui (fun u => u ++ [load_warning]) s).
Proof.
  intros H. unfold prediction_logic. now rewrite (bind_ok _ _ _ _ _ (read_name_bound _ _ _ s H)).
Qed.

Lemma prediction_logic_model inp g v s :
  g !! "model" = Some v -> v <> VNone ->
  prediction_logic inp g s =
  if pressed inp then prediction_block g (set_ui (fun u => u ++ [predict_button]) s)
  else (Ok tt, set_ui (fun u => u ++ [predict_button]) s).
Proof.
  intros H Hv. unfold prediction_logic.
  rewrite (bind_ok _ _ _ _ _ (read_name_bound _ _ _ s H)).
  destruct v; try congruence; unfold st_button, bind, emit, ret; cbn;
    destruct (pressed inp); reflexivity.
Qed.

(** ** The guarded region, case by case *)

Lemma call_predict_run l o p df s :
  heap s !! l = Some o -> obj_predict o = Some p ->
  call_predict (VObj l) df s =
  (fst (p (obj_state o) df), after_call l o (snd (p (obj_state o) df)) df s).
Proof.
  intros Hl Hp. unfold call_predict. rewrite Hl, Hp.
  destruct (p (obj_state o) df). unfold after_call. now rewrite Hp.
Qed.

(** Indexing and formatting fail with exceptions that [except Exception]
    catches. *)
Lemma getitem0_raises_Exception h v e :
  getitem0 h v = Raise e -> isinstance e Exception = true.
Proof.
  destruct v as [| n | x | [| a r] | [| y t] | l]; cbn; intros H; inversion H; reflexivity.
Qed.

Lemma format_2f_raises_Exception cls v e :
  Fmt.format_2f cls v = Raise e -> isinstance e Exception = true.
Proof.
  destruct v as [| n | x | t | t | l]; cbn; intros H; try (inversion H; reflexivity).
  destruct (Fmt.float_of_int n); inversion H; reflexivity.
Qed.

(** [predict] raised. *)
Lemma guarded_predict_raised g df l o p s e :
  g !! "model" = Some (VObj l) -> heap s !! l = Some o -> obj_predict o = Some p ->
  fst (p (obj_state o) df) = Raise e ->
  guarded_predict g df s =
  let s1 := after_call l o (snd (p (obj_state o) df)) df s in
  if isinstance e Exception
  then (Ok tt, set_ui (fun u => u ++ [prediction_error e]) s1)
  else (Raise e, s1).
Proof.
  intros Hg Hl Hp He. unfold guarded_predict, try_except.
  rewrite (bind_ok _ _ _ _ _ (read_name_bound _ _ _ s Hg)).
  rewrite (bind_raise _ _ _ e _ (eq_trans (call_predict_run _ _ _ _ _ Hl Hp)
             (f_equal (fun r => (r, _)) He))).
  reflexivity.
Qed.

(** [predict] returned [v]. *)
Lemma guarded_predict_returned g df l o p s v :
  g !! "model" = Some (VObj l) -> heap s !! l = Some o -> obj_predict o = Some p ->
  fst (p (obj_state o) df) = Ok v ->
  guarded_predict g df s =
  let s1 := after_call l o (snd (p (obj_state o) df)) df s in
  let shown :=
    match getitem0 (heap s1) v with
    | Raise e => [result_heading; prediction_error e]
    | Ok x =>
        match Fmt.format_2f (class_name (heap s1) x) x with
        | Raise e => [result_heading; prediction_error e]
        | Ok txt => [result_heading; result_success txt; result_info]
        end
    end in
  (Ok tt, set_ui (fun u => u ++ shown) s1).
Proof.
  intros Hg Hl Hp Hv. unfold guarded_predict, try_except.
  rewrite (bind_ok _ _ _ _ _ (read_name_bound _ _ _ s Hg)).
  rewrite (bind_ok _ _ _ v _ (eq_trans (call_predict_run _ _ _ _ _ Hl Hp)
             (f_equal (fun r => (r, _)) Hv))).
  set (s1 := after_call _ _ _ _ _).
  rewrite (bind_ok _ _ _ tt _ (emit_run _ _ _)).
  unfold bind at 1, subscript0 at 1. rewrite heap_set_ui.
  destruct (getitem0 (heap s1) v) as [x | e] eqn:Hx.
  - unfold bind at 1, format_spec_2f at 1. rewrite heap_set_ui.
    destruct (Fmt.format_2f _ x) as [txt | e] eqn:Hf.
    + cbn. destruct s1; unfold set_ui; cbn. now rewrite <- !app_assoc.
    + rewrite (format_2f_raises_Exception _ _ _ Hf).
      destruct s1; unfold emit, set_ui; cbn. now rewrite <- !app_assoc.
  - rewrite (getitem0_raises_Exception _ _ _ Hx).
    destruct s1; unfold emit, set_ui; cbn. now rewrite <- !app_assoc.
Qed.

Lemma call_predict_no_method v df s :
  predict_method (heap s) v = None ->
  call_predict v df s = (Raise (no_predict_attribute (heap s) v), s).
Proof.
  unfold predict_method, call_predict, no_predict_attribute.
  destruct v as [| n | x | t | t | l]; try reflexivity.
  destruct (heap s !! l) as [o |]; [| reflexivity].
  intros H. now rewrite H.
Qed.

Lemma predict_method_Some h v p :
  predict_method h v = Some p ->
  exists l o, v = VObj l /\ h !! l = Some o /\ obj_predict o = Some p.
Proof.
  unfold predict_method. destruct v as [| n | x | t | t | l]; try discriminate.
  destruct (h !! l) as [o |] eqn:Hl; [| discriminate].
  intros H. now exists l, o.
Qed.

Lemma guarded_predict_unbound_model g df s :
  g !! "model" = None ->
  guarded_predict g df s =
  (Ok tt, set_ui (fun u => u ++ [prediction_error (Exn NameError "name 'model' is not defined")]) s).
Proof.
  intros Hg. unfold guarded_predict, try_except.
  now rewrite (bind_raise _ _ _ _ _ (read_name_unbound _ "model" s Hg)).
Qed.

Lemma guarded_predict_no_method g df s v :
  g !! "model" = Some v -> predict_method (heap s) v = None ->
  guarded_predict g df s =
  (Ok tt, set_ui (fun u => u ++ [prediction_error (no_predict_attribute (heap s) v)]) s).
Proof.
  intros Hg Hm. unfold guarded_predict, try_except.
  rewrite (bind_ok _ _ _ _ _ (read_name_bound _ _ _ s Hg)).
  now rewrite (bind_raise _ _ _ _ _ (call_predict_no_method _ df _ Hm)).
Qed.

(** The guarded region hands to [predict] the record it is given. *)
Lemma guarded_predict_calls g df l o p s :
  g !! "model" = Some (VObj l) -> heap s !! l = Some o -> obj_predict o = Some p ->
  calls (snd (guarded_predict g df s)) = calls s ++ [(l, df)].
Proof.
  intros Hg Hl Hp. destruct (fst (p (obj_state o) df)) as [v | e] eqn:E.
  - now rewrite (guarded_predict_returned _ _ _ _ _ _ _ Hg Hl Hp E).
  - rewrite (guarded_predict_raised _ _ _ _ _ _ _ Hg Hl Hp E). cbn zeta.
    now destruct (isinstance e Exception).
Qed.

(** ** Failures inside the guarded region *)

(** C4: an exception [e] that [model.predict] raises is caught by the
    [except Exception] clause: the run goes on normally and the page shows
    the error message carrying [str(e)]; nothing else is drawn and the
    model cache is untouched. *)
Theorem predict_exception_is_reported g df l o p s e :
  g !! "model" = Some (VObj l) -> heap s !! l = Some o -> obj_predict o = Some p ->
  fst (p (obj_state o) df) = Raise e ->
  isinstance e Exception = true ->
  fst (guarded_predict g df s) = Ok tt
  /\ ui (snd (guarded_predict g df s)) =
     ui s ++ [(Main, Error ("Ocurrió un error durante la predicción: " +:+ exn_msg e))]
  /\ cache (snd (guarded_predict g df s)) = cache s.
Proof.
  intros Hg Hl Hp He Hi.
  rewrite (guarded_predict_raised _ _ _ _ _ _ _ Hg Hl Hp He). cbn zeta. rewrite Hi.
  repeat split.
Qed.

Lemma predict_exception_is_reported_witness :
  let e := Exn ValueError "Feature shape mismatch, expected: 22, got 3" in
  let g : gmap string pyval := <["model" := VObj 0%nat]> ∅ in
  let df := df_input_of (VFloat 488.43) (VFloat 200.13) (VFloat 65.04) in
  let s := State [] ∅ [stub_raising e] [] [] in
  fst (guarded_predict g df s) = Ok tt
  /\ ui (snd (guarded_predict g df s)) =
     ui s ++ [(Main, Error ("Ocurrió un error durante la predicción: " +:+ exn_msg e))]
  /\ cache (snd (guarded_predict g df s)) = cache s.
Proof.
  intros e g df s.
  apply (predict_exception_is_reported g df 0%nat (stub_raising e) (fun st _ => (Raise e, st)) s e);
    reflexivity.
Defined.

(** What [except Exception] leaves alone: an exception outside the
    [Exception] hierarchy, such as [KeyboardInterrupt], leaves the block. *)
Lemma predict_exit_propagates g df l o p s e :
  g !! "model" = Some (VObj l) -> heap s !! l = Some o -> obj_predict o = Some p ->
  fst (p (obj_state o) df) = Raise e ->
  isinstance e Exception = false ->
  fst (guarded_predict g df s) = Raise e.
Proof.
  intros Hg Hl Hp He Hi.
  rewrite (guarded_predict_raised _ _ _ _ _ _ _ Hg Hl Hp He). cbn zeta. now rewrite Hi.
Qed.

(** C10: indexing the output at 0 and formatting the element both sit in the
    [try]: when [predict] returns [v] and [v[0]] raises (an empty sequence
    gives [IndexError]) or the element cannot be formatted with [.2f], the
    run goes on normally and the page shows the heading followed by the
    error message. *)
Theorem display_failure_is_reported g df l o p s v e :
  g !! "model" = Some (VObj l) -> heap s !! l = Some o -> obj_predict o = Some p ->
  fst (p (obj_state o) df) = Ok v ->
  (let h := heap (after_call l o (snd (p (obj_state o) df)) df s) in
   getitem0 h v = Raise e
   \/ exists x, getitem0 h v = Ok x /\ Fmt.format_2f (class_name h x) x = Raise e) ->
  fst (guarded_predict g df s) = Ok tt
  /\ ui (snd (guarded_predict g df s)) =
     ui s ++ [(Main, Subheader "📈 Resultado de la Predicción");
              (Main, Error ("Ocurrió un error durante la predicción: " +:+ exn_msg e))].
Proof.
  intros Hg Hl Hp Hv Hfail.
  rewrite (guarded_predict_returned _ _ _ _ _ _ _ Hg Hl Hp Hv). cbn zeta in *.
  destruct Hfail as [Hx | [x [Hx Hf]]].
  - rewrite Hx. split; reflexivity.
  - rewrite Hx, Hf. split; reflexivity.
Qed.

Lemma display_failure_is_reported_witness :
  let g : gmap string pyval := <["model" := VObj 0%nat]> ∅ in
  let df := df_input_of (VFloat 488.43) (VFloat 200.13) (VFloat 65.04) in
  let s := State [] ∅ [stub_returning (VList [])] [] [] in
  getitem0 (heap s) (VList []) = Raise (Exn IndexError "list index out of range")
  /\ fst (guarded_predict g df s) = Ok tt
  /\ ui (snd (guarded_predict g df s)) =
     [(Main, Subheader "📈 Resultado de la Predicción");
      (Main, Error "Ocurrió un error durante la predicción: list index out of range")].
Proof.
  intros g df s. split; [reflexivity |].
  apply (display_failure_is_reported g df 0%nat (stub_returning (VList []))
           (fun st _ => (Ok (VList []), st)) s (VList [])
           (Exn IndexError "list index out of range"));
    try reflexivity.
  left. reflexivity.
Defined.

(** An element that is not a number is reported the same way. *)
Example unformattable_element_reported :
  let g : gmap string pyval := <["model" := VObj 0%nat]> ∅ in
  let s := State [] ∅ [stub_returning (VList [VNone])] [] [] in
  guarded_predict g (df_input_of (VFloat 488.43) (VFloat 200.13) (VFloat 65.04)) s =
  (Ok tt,
   State [(Main, Subheader "📈 Resultado de la Predicción");
          (Main, Error "Ocurrió un error durante la predicción: unsupported format string passed to NoneType.__format__")]
     ∅ [stub_returning (VList [VNone])] []
     [(0%nat, df_input_of (VFloat 488.43) (VFloat 200.13) (VFloat 65.04))]).
Proof. reflexivity. Qed.

(** ** The guarded region on a stub model *)

(** With the record built, a stub returning the one-element sequence [x]
    gets [x] displayed, formatted to two decimals. *)
Lemma guarded_predict_stub g df l s x :
  g !! "model" = Some (VObj l) ->
  heap s !! l = Some (stub_returning (VList [VFloat x])) ->
  fst (guarded_predict g df s) = Ok tt
  /\ ui (snd (guarded_predict g df s)) =
     ui s ++ [result_heading; result_success (Fmt.format_2f_SF (Prim2SF x)); result_info].
Proof.
  intros Hg Hl.
  rewrite (guarded_predict_returned _ _ _ _ (fun st _ => (Ok (VList [VFloat x]), st))
             _ (VList [VFloat x]) Hg Hl); try reflexivity.
  split; reflexivity.
Qed.

Example format_1_67 : Fmt.format_2f_SF (Prim2SF 1.67) = "1.67".
Proof. reflexivity. Qed.

Example guarded_predict_stub_1_67 :
  let g : gmap string pyval := <["model" := VObj 0%nat]> ∅ in
  let s := State [] ∅ [stub_returning (VList [VFloat 1.67])] [] [] in
  ui (snd (guarded_predict g (df_input_of (VFloat 488.43) (VFloat 200.13) (VFloat 65.04)) s)) =
  [(Main, Subheader "📈 Resultado de la Predicción");
   (Main, Success "**Concentración Predicha:** `1.67%`");
   (Main, Info "Este valor representa el porcentaje estimado de la concentración final de silice.")].
Proof. reflexivity. Qed.

(** ** The run and the button *)

(** C1, on the code: with a stub returning 1.67 in the model file, no run
    displays [1.67%], whatever the session: the run ends at line 38 with
    the exception [st.slider] raises on [float] bounds with the [int] step
    1; the button is not drawn, [predict] is not invoked and no result is
    shown. *)
Theorem stub_result_not_displayed inp :
  let d := stub_disk (VList [VFloat 1.67]) in
  fst (script d inp fresh_state) =
    Raise (slider_types_error [] (VFloat 241.7) (VFloat 739.3) (VInt 1))
  /\ calls (snd (script d inp fresh_state)) = []
  /\ shows_button (ui (snd (script d inp fresh_state))) = false
  /\ shows_success (ui (snd (script d inp fresh_state))) = false.
Proof. cbv zeta. rewrite script_run. repeat split. Qed.

(** C7, on the code: at every combination of the slider bounds the run
    ends with the exception of [st.slider] at line 38, raised out of the
    script, and the button is not drawn. *)
Theorem boundary_sessions_raise :
  Forall (fun inp =>
            fst (script (stub_disk (VList [VFloat 1.67])) inp fresh_state) =
              Raise (slider_types_error [] (VFloat 241.7) (VFloat 739.3) (VInt 1))
            /\ shows_button (ui (snd (script (stub_disk (VList [VFloat 1.67])) inp fresh_state)))
               = false)
         boundary_sessions.
Proof. repeat (constructor; [split; vm_compute; reflexivity |]). constructor. Qed.

Example boundary_sessions_length : length boundary_sessions = 8%nat.
Proof. reflexivity. Qed.





(** ** Loading failures *)

(** The whole run when [joblib.load] fails on the first load of the file. *)
Lemma script_load_failure d inp s e :
  cache s !! "modelo.joblib" = None ->
  d "modelo.joblib" = Raise e ->
  script d inp s =
  if isinstance e FileNotFoundError
  then (Raise amina_slider_error,
        State (ui s ++ [page_config; (Main, Error (not_found_message "modelo.joblib"))]
                 ++ sidebar_drawn)
          (<["modelo.joblib" := VNone]> (cache s)) (heap s)
          (loads s ++ ["modelo.joblib"]) (calls s))
  else (Raise e,
        State (ui s ++ [page_config]) (cache s) (heap s)
          (loads s ++ ["modelo.joblib"]) (calls s)).
Proof.
  intros Hc Hd. rewrite script_unfold, load_model_miss, load_model_body_cases by exact Hc.
  rewrite Hd. destruct (isinstance e FileNotFoundError).
  - destruct s; unfold set_ui, set_cache; cbn. now rewrite <- !app_assoc.
  - reflexivity.
Qed.

(** C5: for every path whose file is missing, the body of [load_model]
    catches the [FileNotFoundError], shows the error message naming the
    path and returns [None] instead of raising; so does the cached call on
    a path not loaded before; and with [model] being [None] the page shows
    the warning and neither draws the button nor invokes [predict]. *)
Theorem missing_model_file_is_reported d path s e :
  d path = Raise e ->
  isinstance e FileNotFoundError = true ->
  load_model_body d path s =
    (Ok VNone,
     State (ui s ++ [(Main, Error (not_found_message path))]) (cache s) (heap s)
       (loads s ++ [path]) (calls s))
  /\ (cache s !! path = None ->
      fst (load_model d path s) = Ok VNone
      /\ ui (snd (load_model d path s)) = ui s ++ [(Main, Error (not_found_message path))])
  /\ (forall inp s',
        fst (prediction_logic inp (script_globals inp VNone) s') = Ok tt
        /\ ui (snd (prediction_logic inp (script_globals inp VNone) s')) = ui s' ++ [load_warning]
        /\ calls (snd (prediction_logic inp (script_globals inp VNone) s')) = calls s').
Proof.
  intros Hd He.
  assert (Hb : load_model_body d path s =
               (Ok VNone,
                State (ui s ++ [(Main, Error (not_found_message path))]) (cache s) (heap s)
                  (loads s ++ [path]) (calls s))).
  { rewrite load_model_body_cases, Hd, He. reflexivity. }
  split; [exact Hb |]. split.
  - intros Hc. rewrite load_model_miss, Hb by exact Hc. split; reflexivity.
  - intros inp s'. rewrite prediction_logic_None by apply script_globals_model.
    repeat split.
Qed.

Lemma missing_model_file_is_reported_witness :
  let d : disk := fun p => Raise (Exn FileNotFoundError
                     ("[Errno 2] No such file or directory: '" +:+ p +:+ "'")) in
  load_model_body d "modelo.joblib" fresh_state =
    (Ok VNone,
     State [(Main, Error "Error: No se encontró el archivo del modelo en modelo.joblib. Asegúrate de que el archivo del modelo esté en el directorio correcto.")]
       ∅ [] ["modelo.joblib"] [])
  /\ shows_button (ui (snd (script d (defaults true) fresh_state))) = false.
Proof.
  intros d. split; [| reflexivity].
  apply (missing_model_file_is_reported d "modelo.joblib" fresh_state
           (Exn FileNotFoundError "[Errno 2] No such file or directory: 'modelo.joblib'"));
    reflexivity.
Defined.

(** C3 as stated fails: when deserialization fails for a reason other than
    a missing file, here [EOFError] on a truncated file, [load_model] does
    not catch it; the run ends at line 28 with that exception raised out of
    the script, and neither the warning nor anything after the page
    configuration is drawn. *)
Lemma corrupt_model_file_aborts_run :
  corrupt_disk "modelo.joblib" = Raise truncated_pickle
  /\ fst (load_model corrupt_disk "modelo.joblib" fresh_state) = Raise truncated_pickle
  /\ fst (script corrupt_disk (defaults false) fresh_state) = Raise truncated_pickle
  /\ shows_warning (ui (snd (script corrupt_disk (defaults false) fresh_state))) = false
  /\ ui (snd (script corrupt_disk (defaults false) fresh_state)) = [page_config].
Proof. repeat split. Qed.

(** C3, amended: on the first load of the model file, a missing file
    ([FileNotFoundError]) is reported by [load_model] with the error
    message and [None] is returned and cached instead of an exception
    raised, and the branch for a [model] that is [None] draws the warning
    and no button; an exception of any other class raised by [joblib.load]
    leaves [load_model] and the script at line 28, with only the page
    configuration drawn. *)
Theorem load_failure_outcomes d inp s e :
  cache s !! "modelo.joblib" = None ->
  d "modelo.joblib" = Raise e ->
  if isinstance e FileNotFoundError
  then load_model d "modelo.joblib" s =
         (Ok VNone,
          State (ui s ++ [(Main, Error (not_found_message "modelo.joblib"))])
            (<["modelo.joblib" := VNone]> (cache s)) (heap s)
            (loads s ++ ["modelo.joblib"]) (calls s))
       /\ (forall g s',
             g !! "model" = Some VNone ->
             prediction_logic inp g s' = (Ok tt, set_ui (fun u => u ++ [load_warning]) s'))
  else fst (load_model d "modelo.joblib" s) = Raise e
       /\ fst (script d inp s) = Raise e
       /\ ui (snd (script d inp s)) = ui s ++ [page_config].
Proof.
  intros Hc Hd.
  rewrite (script_load_failure _ _ _ _ Hc Hd).
  rewrite load_model_cases, Hc, Hd.
  destruct (isinstance e FileNotFoundError); repeat split.
  intros g s' Hg. now apply prediction_logic_None.
Qed.

Lemma load_failure_outcomes_witness :
  fst (load_model corrupt_disk "modelo.joblib" fresh_state) = Raise truncated_pickle
  /\ fst (script corrupt_disk (defaults true) fresh_state) = Raise truncated_pickle
  /\ ui (snd (script corrupt_disk (defaults true) fresh_state)) = ui fresh_state ++ [page_config].
Proof.
  exact (load_failure_outcomes corrupt_disk (defaults true) fresh_state truncated_pickle
           eq_refl eq_refl).
Defined.

(** The other branch, on a disk without the file: the error is drawn and
    the run goes on to the first slider. *)
Example missing_model_file_run :
  let d := disk_with "otro.joblib" (Ok (SObject (stub_returning (VList [VFloat 1.67])))) in
  fst (script d (defaults true) fresh_state) = Raise amina_slider_error
  /\ shows_error (ui (snd (script d (defaults true) fresh_state))) = true
  /\ shows_warning (ui (snd (script d (defaults true) fresh_state))) = false
  /\ shows_button (ui (snd (script d (defaults true) fresh_state))) = false.
Proof. repeat split. Qed.

(** ** Memoized loading *)

Lemma load_repeatedly_hit d path v n s :
  cache s !! path = Some v ->
  load_repeatedly d path n s = (Ok (repeat v n), s).
Proof.
  intros Hc. induction n as [| n IH]; [reflexivity |].
  cbn [load_repeatedly repeat].
  rewrite (bind_ok _ _ _ _ _ (load_model_hit d _ _ _ Hc)).
  rewrite (bind_ok _ _ _ _ _ IH). reflexivity.
Qed.

(** C6: [n] calls of [load_model] on a path whose file is a model (or is
    missing) all return the same value and deserialize at most once.  On a
    cached path every call returns the cached value and the state is left
    as it was.  On a path not cached, with [n] positive, [joblib.load] runs
    once, at the first call: when the file holds an object every call
    returns the reference to the one object built from it, when it holds
    plain data every call returns that data, and when it is missing every
    call returns [None]. *)
Theorem load_is_memoized d path n s :
  (forall e, d path = Raise e -> isinstance e FileNotFoundError = true) ->
  match cache s !! path with
  | Some c => load_repeatedly d path n s = (Ok (repeat c n), s)
  | None =>
      match n with
      | O => load_repeatedly d path n s = (Ok [], s)
      | S _ =>
          loads (snd (load_repeatedly d path n s)) = loads s ++ [path]
          /\ match d path with
             | Ok (SObject o) =>
                 fst (load_repeatedly d path n s) = Ok (repeat (VObj (length (heap s))) n)
                 /\ heap (snd (load_repeatedly d path n s)) = heap s ++ [o]
             | Ok (SValue x) =>
                 fst (load_repeatedly d path n s) = Ok (repeat x n)
                 /\ heap (snd (load_repeatedly d path n s)) = heap s
             | Raise _ =>
                 fst (load_repeatedly d path n s) = Ok (repeat VNone n)
                 /\ heap (snd (load_repeatedly d path n s)) = heap s
             end
      end
  end.
Proof.
  intros Hd. destruct (cache s !! path) as [c |] eqn:Hc.
  - now apply load_repeatedly_hit.
  - destruct n as [| n]; [reflexivity |].
    pose proof (load_model_cases d path s) as Hl. rewrite Hc in Hl.
    cbn [load_repeatedly].
    destruct (d path) as [[o | x] | e] eqn:E.
    + rewrite (bind_ok _ _ _ _ _ Hl).
      rewrite (bind_ok _ _ _ _ _
                 (load_repeatedly_hit d path (VObj (length (heap s))) n _
                    (lookup_insert_eq _ _ _))).
      repeat split.
    + rewrite (bind_ok _ _ _ _ _ Hl).
      rewrite (bind_ok _ _ _ _ _
                 (load_repeatedly_hit d path x n _ (lookup_insert_eq _ _ _))).
      repeat split.
    + rewrite (Hd e eq_refl) in Hl.
      rewrite (bind_ok _ _ _ _ _ Hl).
      rewrite (bind_ok _ _ _ _ _
                 (load_repeatedly_hit d path VNone n _ (lookup_insert_eq _ _ _))).
      repeat split.
Qed.

Lemma load_is_memoized_witness :
  let d := stub_disk (VList [VFloat 1.67]) in
  let s := bare [stub_counting] in
  loads (snd (load_repeatedly d "modelo.joblib" 5 s)) = loads s ++ ["modelo.joblib"]
  /\ fst (load_repeatedly d "modelo.joblib" 5 s) = Ok (repeat (VObj 1%nat) 5)
  /\ heap (snd (load_repeatedly d "modelo.joblib" 5 s)) =
     heap s ++ [stub_returning (VList [VFloat 1.67])].
Proof.
  intros d s. apply (load_is_memoized d "modelo.joblib" 5 s).
  intros e He. discriminate He.
Defined.

Example five_loads_one_object :
  let r := load_repeatedly (stub_disk (VList [VFloat 1.67])) "modelo.joblib" 5 fresh_state in
  fst r = Ok (repeat (VObj 0%nat) 5)
  /\ loads (snd r) = ["modelo.joblib"]
  /\ length (heap (snd r)) = 1%nat.
Proof. repeat split. Qed.

(** Without the decorator every call deserializes again and builds another
    object. *)
Example undecorated_loads_twice :
  let d := stub_disk (VList [VFloat 1.67]) in
  let r := (a <- load_model_body d "modelo.joblib" ;;
            b <- load_model_body d "modelo.joblib" ;; ret (a, b)) fresh_state in
  fst r = Ok (VObj 0%nat, VObj 1%nat)
  /\ loads (snd r) = ["modelo.joblib"; "modelo.joblib"].
Proof. repeat split. Qed.

(** ** Non-finite values *)

(** C8 as stated fails: the guarded region, given a record that holds NaN
    and infinities, passes it to [predict] and displays the
    result; no error is shown. *)
Lemma nan_record_is_not_rejected :
  let g : gmap string pyval := <["model" := VObj 0%nat]> ∅ in
  let df := df_input_of (VFloat nan) (VFloat infinity) (VFloat neg_infinity) in
  let s := State [] ∅ [stub_returning (VList [VFloat 1.67])] [] [] in
  is_finite nan = false
  /\ is_finite infinity = false
  /\ is_finite neg_infinity = false
  /\ fst (guarded_predict g df s) = Ok tt
  /\ calls (snd (guarded_predict g df s)) = [(0%nat, df)]
  /\ shows_error (ui (snd (guarded_predict g df s))) = false
  /\ shows_success (ui (snd (guarded_predict g df s))) = true.
Proof. cbv zeta. repeat split; vm_compute; reflexivity. Qed.

(** C8, amended: the prediction handler makes no check for non-finite
    values: the guarded region invokes [predict] on the very record it is
    given, whatever its cells. *)
Theorem record_reaches_predict_unchecked g df l o p s :
  g !! "model" = Some (VObj l) -> heap s !! l = Some o -> obj_predict o = Some p ->
  calls (snd (guarded_predict g df s)) = calls s ++ [(l, df)].
Proof.
  intros Hg Hl Hp. exact (guarded_predict_calls _ _ _ _ _ _ Hg Hl Hp).
Qed.

Lemma record_reaches_predict_unchecked_witness :
  let g : gmap string pyval := <["model" := VObj 0%nat]> ∅ in
  let df := df_input_of (VFloat infinity) (VFloat nan) (VFloat neg_infinity) in
  let s := State [] ∅ [stub_returning (VList [VFloat 1.67])] [] [] in
  calls (snd (guarded_predict g df s)) = calls s ++ [(0%nat, df)].
Proof.
  intros g df s.
  apply (record_reaches_predict_unchecked g df 0%nat (stub_returning (VList [VFloat 1.67]))
           (fun st _ => (Ok (VList [VFloat 1.67]), st)) s);
    reflexivity.
Defined.

(** ** What a prediction depends on and what it leaves behind *)

Create HintDb framed.

Lemma framed_ret {A} (a : A) : framed (ret a).
Proof. intros [u c h l k]. unfold ret, bare; cbn. now rewrite !app_nil_r. Qed.

Lemma framed_raise {A} (e : exn) : framed (@raise A e).
Proof. intros [u c h l k]. unfold raise, bare; cbn. now rewrite !app_nil_r. Qed.

Lemma framed_emit c el : framed (emit c el).
Proof. intros [u ca h l k]. unfold emit, bare, set_ui; cbn. now rewrite !app_nil_r. Qed.

Lemma framed_read_name g x : framed (read_name g x).
Proof. unfold read_name. destruct (g !! x); [apply framed_ret | apply framed_raise]. Qed.

Lemma framed_subscript0 v : framed (subscript0 v).
Proof. intros [u c h l k]. unfold subscript0, bare; cbn. now rewrite !app_nil_r. Qed.

Lemma framed_format_spec_2f x : framed (format_spec_2f x).
Proof. intros [u c h l k]. unfold format_spec_2f, bare; cbn. now rewrite !app_nil_r. Qed.

Lemma framed_call_predict model df : framed (call_predict model df).
Proof.
  intros [u c h l k]. unfold call_predict, bare; cbn.
  destruct model as [| n | x | t | t | a]; cbn; rewrite ?app_nil_r; try reflexivity.
  destruct (h !! a) as [o |]; cbn; rewrite ?app_nil_r; try reflexivity.
  destruct (obj_predict o) as [p |]; cbn; rewrite ?app_nil_r; try reflexivity.
  destruct (p (obj_state o) df); cbn; rewrite ?app_nil_r; reflexivity.
Qed.

Lemma framed_bind {A B} (c : M A) (k : A -> M B) :
  framed c -> (forall a, framed (k a)) -> framed (bind c k).
Proof.
  intros Hc Hk s. unfold bind. rewrite (Hc s).
  destruct (c (bare (heap s))) as [[a | e] s0]; cbn [fst snd]; [| reflexivity].
  rewrite (Hk a (State _ _ _ _ _)), (Hk a s0). cbn. now rewrite !app_assoc.
Qed.

Lemma framed_try_except {A} (body : M A) cls (handler : exn -> M A) :
  framed body -> (forall e, framed (handler e)) -> framed (try_except body cls handler).
Proof.
  intros Hb Hh s. unfold try_except. rewrite (Hb s).
  destruct (body (bare (heap s))) as [[a | e] s0]; cbn [fst snd]; [reflexivity |].
  destruct (isinstance e cls); [| reflexivity].
  rewrite (Hh e (State _ _ _ _ _)), (Hh e s0). cbn. now rewrite !app_assoc.
Qed.

#[local] Hint Resolve framed_ret framed_raise framed_emit framed_read_name framed_subscript0
  framed_format_spec_2f framed_call_predict : framed.

Ltac framed_steps :=
  repeat first
    [ apply framed_bind; [| intros ?]
    | apply framed_try_except; [| intros ?]
    | solve [auto with framed] ].

Lemma framed_guarded_predict g df : framed (guarded_predict g df).
Proof. unfold guarded_predict. framed_steps. Qed.

Lemma framed_build_df_input g : framed (build_df_input g).
Proof. unfold build_df_input. framed_steps. Qed.

Lemma framed_prediction_block g : framed (prediction_block g).
Proof.
  unfold prediction_block.
  apply framed_bind; [apply framed_build_df_input | intros df; apply framed_guarded_predict].
Qed.

Lemma heap_stable_bind {A B} (c : M A) (k : A -> M B) :
  heap_stable c -> (forall a, heap_stable (k a)) -> heap_stable (bind c k).
Proof.
  intros Hc Hk s Hs. unfold bind. specialize (Hc s Hs).
  destruct (c s) as [[a | e] s']; cbn in *; [| exact Hc].
  rewrite <- Hc. apply Hk. now rewrite Hc.
Qed.

Lemma heap_stable_try_except {A} (body : M A) cls (handler : exn -> M A) :
  heap_stable body -> (forall e, heap_stable (handler e)) ->
  heap_stable (try_except body cls handler).
Proof.
  intros Hb Hh s Hs. unfold try_except. specialize (Hb s Hs).
  destruct (body s) as [[a | e] s']; cbn in *; [exact Hb |].
  destruct (isinstance e cls); [| exact Hb].
  rewrite <- Hb. apply Hh. now rewrite Hb.
Qed.

Lemma heap_stable_call_predict model df : heap_stable (call_predict model df).
Proof.
  intros [u c h l k] Hs. unfold call_predict; cbn in *.
  destruct model as [| n | x | t | t | a]; try reflexivity.
  destruct (h !! a) as [o |] eqn:Ha; try reflexivity.
  destruct (obj_predict o) as [p |] eqn:Hp; try reflexivity.
  specialize (Hs a o p df Ha Hp).
  destruct (p (obj_state o) df) as [r st]; cbn in *. subst st.
  rewrite <- Hp. destruct o. now apply list_insert_id.
Qed.

Lemma heap_stable_prediction_block g : heap_stable (prediction_block g).
Proof.
  unfold prediction_block, build_df_input, guarded_predict.
  repeat first
    [ apply heap_stable_bind; [| intros ?]
    | apply heap_stable_try_except; [| intros ?]
    | apply heap_stable_call_predict
    | (intros s _; unfold read_name; destruct (_ !! _); reflexivity)
    | (intros s _; reflexivity) ].
Qed.

(** With immutable models: two invocations of the prediction block with the same namespace
    (the same inputs and the same model) on the same heap of immutable
    models end the same way and display the same; an invocation leaves the
    heap, the model cache and the list of loads as it found them. *)
Theorem prediction_is_deterministic g s1 s2 :
  heap s1 = heap s2 ->
  read_only_heap (heap s1) ->
  fst (prediction_block g s1) = fst (prediction_block g s2)
  /\ (exists shown,
        ui (snd (prediction_block g s1)) = ui s1 ++ shown
        /\ ui (snd (prediction_block g s2)) = ui s2 ++ shown)
  /\ heap (snd (prediction_block g s1)) = heap s1
  /\ cache (snd (prediction_block g s1)) = cache s1
  /\ loads (snd (prediction_block g s1)) = loads s1.
Proof.
  intros Hh Hro.
  pose proof (heap_stable_prediction_block g s1 Hro) as Hst.
  rewrite (framed_prediction_block g s1) in *.
  rewrite (framed_prediction_block g s2). rewrite <- Hh. cbn in *.
  repeat split; eauto.
Qed.

Lemma read_only_stub out : read_only_heap [stub_returning out].
Proof.
  intros l o p df Hl Hp. destruct l as [| l]; cbn in Hl.
  - inversion Hl; subst o. cbn in Hp. inversion Hp; subst p. reflexivity.
  - destruct l; discriminate Hl.
Qed.

Lemma prediction_is_deterministic_witness :
  let g := bound_globals 488.43 200.13 65.04 (VObj 0%nat) in
  let s1 := State [] ∅ [stub_returning (VList [VFloat 1.67])] [] [] in
  let s2 := snd (prediction_block g s1) in
  fst (prediction_block g s1) = fst (prediction_block g s2)
  /\ (exists shown,
        ui (snd (prediction_block g s1)) = ui s1 ++ shown
        /\ ui (snd (prediction_block g s2)) = ui s2 ++ shown)
  /\ heap (snd (prediction_block g s1)) = heap s1
  /\ cache (snd (prediction_block g s1)) = cache s1
  /\ loads (snd (prediction_block g s1)) = loads s1.
Proof.
  intros g s1 s2.
  apply (prediction_is_deterministic g s1 s2); [reflexivity | apply read_only_stub].
Defined.

(** In a namespace of the assigned names the block never reaches the
    model, so there it ends the same way on every heap. *)
Lemma prediction_block_script_same inp v s1 s2 :
  fst (prediction_block (script_globals inp v) s1) =
  fst (prediction_block (script_globals inp v) s2)
  /\ snd (prediction_block (script_globals inp v) s1) = s1.
Proof. now rewrite !prediction_block_script. Qed.

(** ** What a prediction changes *)






(** * The rest of the script *)

(** ** Runs of the script *)

(** X1: every run ends with an exception raised out of the script: the
    one of a failed load when [load_model] raises, and otherwise the one
    [st.slider] raises at line 38.  No run ends normally. *)
Theorem script_outcome d inp s :
  fst (script d inp s) =
  match fst (load_model d "modelo.joblib" s) with
  | Raise e => Raise e
  | Ok _ => Raise (slider_types_error [] (VFloat 241.7) (VFloat 739.3) (VInt 1))
  end.
Proof.
  rewrite script_run.
  destruct (fst (load_model d "modelo.joblib" s)) as [v | e]; reflexivity.
Qed.

(** X2: no run of the script invokes [predict] or shows a predicted value,
    whatever the model file, the slider positions, the click and the state
    the run starts in. *)
Theorem script_never_predicts d inp s :
  calls (snd (script d inp s)) = calls s
  /\ exists out,
       ui (snd (script d inp s)) = ui s ++ out /\ shows_success out = false.
Proof.
  rewrite script_run.
  destruct (load_drawn_kinds d "modelo.joblib" s) as (Hl & _).
  destruct (fst (load_model d "modelo.joblib" s)) as [v | e]; cbn [snd]; split;
    try apply load_model_calls.
  - eexists. split; [reflexivity |].
    unfold shows_success in *. rewrite !existsb_app, Hl. reflexivity.
  - eexists. split; [reflexivity |].
    unfold shows_success in *. rewrite !existsb_app, Hl. reflexivity.
Qed.


(** X5: the run does not look at the slider positions: two sessions that
    agree on the button give the same outcome and leave the same state. *)
Lemma script_ignores_positions d inp inp' s :
  pressed inp = pressed inp' -> script d inp s = script d inp' s.
Proof.
  intros _. now rewrite !script_run.
Qed.

Lemma script_ignores_positions_witness :
  script (stub_disk (VList [VFloat 1.67])) (Session 241.7 372.44 62.51 true) fresh_state =
  script (stub_disk (VList [VFloat 1.67])) (Session 739.3 175.85 68.01 true) fresh_state.
Proof.
  apply (script_ignores_positions (stub_disk (VList [VFloat 1.67]))
           (Session 241.7 372.44 62.51 true) (Session 739.3 175.85 68.01 true) fresh_state).
  reflexivity.
Defined.

(** ** Runs one after the other *)

(** X6: once a run has loaded the model, or found the file missing, later
    runs reuse that result: whatever the disk holds by then, [load_model]
    returns the same value, nothing is deserialized and the heap stays as
    it is.  This holds also after a run that ended with an exception. *)
Theorem later_runs_reuse_the_load d d' inp inp' s v :
  fst (load_model d "modelo.joblib" s) = Ok v ->
  fst (load_model d' "modelo.joblib" (snd (script d inp s))) = Ok v
  /\ loads (snd (script d' inp' (snd (script d inp s)))) = loads (snd (script d inp s))
  /\ heap (snd (script d' inp' (snd (script d inp s)))) = heap (snd (script d inp s)).
Proof.
  intros Hv.
  assert (Hc : cache (snd (script d inp s)) !! "modelo.joblib" = Some v).
  { rewrite script_run, Hv. cbn [snd]. exact (load_model_cached_after _ _ _ _ Hv). }
  assert (Hl : load_model d' "modelo.joblib" (snd (script d inp s)) =
               (Ok v, snd (script d inp s))) by now apply load_model_hit.
  split; [now rewrite Hl |].
  rewrite (script_run d' inp'), Hl. cbn [fst snd]. split; reflexivity.
Qed.

Lemma later_runs_reuse_the_load_witness :
  let d := stub_disk (VList [VFloat 1.67]) in
  let s1 := snd (script d (defaults true) fresh_state) in
  fst (load_model corrupt_disk "modelo.joblib" s1) = Ok (VObj 0%nat)
  /\ loads (snd (script corrupt_disk (defaults false) s1)) = loads s1
  /\ heap (snd (script corrupt_disk (defaults false) s1)) = heap s1.
Proof.
  intros d s1.
  apply (later_runs_reuse_the_load d corrupt_disk (defaults true) (defaults false)
           fresh_state (VObj 0%nat)).
  reflexivity.
Defined.

(** X7: a run keeps what is cached: an entry of the cache, for any path,
    is there with the same value after the run. *)
Theorem cache_entries_are_kept d inp s path v :
  cache s !! path = Some v -> cache (snd (script d inp s)) !! path = Some v.
Proof.
  intros Hc.
  assert (Hl : cache (snd (load_model d "modelo.joblib" s)) !! path = Some v).
  { rewrite load_model_cases.
    destruct (cache s !! "modelo.joblib") as [c |] eqn:Hm; cbn; [exact Hc |].
    assert (Hne : "modelo.joblib" <> path) by (intros E; subst path; congruence).
    destruct (d "modelo.joblib") as [[o | x] | e]; cbn;
      try (now rewrite lookup_insert_ne by exact Hne).
    destruct (isinstance e FileNotFoundError); cbn;
      [now rewrite lookup_insert_ne by exact Hne | exact Hc]. }
  rewrite script_run.
  destruct (fst (load_model d "modelo.joblib" s)); exact Hl.
Qed.

Lemma cache_entries_are_kept_witness :
  let s := State [] (<["otro.joblib" := VObj 0%nat]> ∅) [stub_counting] [] [] in
  cache (snd (script (stub_disk (VList [VFloat 1.67])) (defaults true) s)) !! "otro.joblib"
  = Some (VObj 0%nat).
Proof.
  intros s.
  apply (cache_entries_are_kept (stub_disk (VList [VFloat 1.67])) (defaults true) s
           "otro.joblib" (VObj 0%nat)).
  reflexivity.
Defined.

(** ** Loading a model file *)

(** X8: the first load of a file holding an object returns a reference to
    a new object: the reference resolves to the deserialized object, no
    earlier reference resolves to it, the cache maps the path to it and
    nothing is drawn. *)
Theorem loaded_model_is_new_object d path s o :
  cache s !! path = None ->
  d path = Ok (SObject o) ->
  exists l,
    fst (load_model d path s) = Ok (VObj l)
    /\ heap (snd (load_model d path s)) !! l = Some o
    /\ heap s !! l = None
    /\ cache (snd (load_model d path s)) !! path = Some (VObj l)
    /\ ui (snd (load_model d path s)) = ui s.
Proof.
  intros Hc Hd. exists (length (heap s)).
  rewrite load_model_cases, Hc, Hd. cbn.
  repeat split.
  - rewrite lookup_app_r by lia. now rewrite Nat.sub_diag.
  - apply lookup_ge_None. lia.
  - apply lookup_insert_eq.
Qed.

Lemma loaded_model_is_new_object_witness :
  let d := stub_disk (VList [VFloat 1.67]) in
  let s := bare [stub_counting] in
  exists l,
    fst (load_model d "modelo.joblib" s) = Ok (VObj l)
    /\ heap (snd (load_model d "modelo.joblib" s)) !! l = Some (stub_returning (VList [VFloat 1.67]))
    /\ heap s !! l = None
    /\ cache (snd (load_model d "modelo.joblib" s)) !! "modelo.joblib" = Some (VObj l)
    /\ ui (snd (load_model d "modelo.joblib" s)) = ui s.
Proof.
  intros d s.
  apply (loaded_model_is_new_object d "modelo.joblib" s (stub_returning (VList [VFloat 1.67])));
    reflexivity.
Defined.

(** X9: loading leaves the objects there are as they are: every reference
    that resolved before the call resolves to the same object after it,
    whether the call returns or raises. *)
Theorem load_keeps_objects d path s l o :
  heap s !! l = Some o -> heap (snd (load_model d path s)) !! l = Some o.
Proof.
  intros Hl. rewrite load_model_cases.
  destruct (cache s !! path); cbn; [exact Hl |].
  destruct (d path) as [[o' | x] | e]; cbn; try exact Hl.
  - now apply lookup_app_l_Some.
  - destruct (isinstance e FileNotFoundError); exact Hl.
Qed.

Lemma load_keeps_objects_witness :
  heap (snd (load_model (stub_disk (VList [VFloat 1.67])) "modelo.joblib" (bare [stub_counting])))
    !! 0%nat = Some stub_counting.
Proof.
  apply (load_keeps_objects (stub_disk (VList [VFloat 1.67])) "modelo.joblib"
           (bare [stub_counting]) 0%nat stub_counting).
  reflexivity.
Defined.

(** ** The guarded region, on every model value *)

(** X10: the guarded region lets an exception out in one case only:
    [predict] itself raised it and it is not an instance of [Exception].
    Every other failure in the region ends the region normally. *)
Theorem guarded_region_contains_failures g df s e :
  fst (guarded_predict g df s) = Raise e ->
  isinstance e Exception = false
  /\ exists l o p,
       g !! "model" = Some (VObj l) /\ heap s !! l = Some o /\ obj_predict o = Some p
       /\ fst (p (obj_state o) df) = Raise e.
Proof.
  destruct (g !! "model") as [v |] eqn:Hg;
    [| rewrite guarded_predict_unbound_model by exact Hg; discriminate].
  destruct (predict_method (heap s) v) as [p |] eqn:Hm;
    [| rewrite (guarded_predict_no_method _ _ _ v) by assumption; discriminate].
  destruct (predict_method_Some _ _ _ Hm) as (l & o & -> & Hl & Hp).
  destruct (fst (p (obj_state o) df)) as [x | e'] eqn:Hr.
  - rewrite (guarded_predict_returned _ _ _ _ _ _ _ Hg Hl Hp Hr). discriminate.
  - rewrite (guarded_predict_raised _ _ _ _ _ _ _ Hg Hl Hp Hr). cbn zeta.
    destruct (isinstance e' Exception) eqn:Hi; [discriminate |].
    intros H. inversion H; subst e'. split; [exact Hi |]. now exists l, o, p.
Qed.

Lemma guarded_region_contains_failures_witness :
  let e := Exn KeyboardInterrupt "" in
  let g : gmap string pyval := <["model" := VObj 0%nat]> ∅ in
  let s := bare [stub_raising e] in
  isinstance e Exception = false
  /\ exists l o p,
       g !! "model" = Some (VObj l) /\ heap s !! l = Some o /\ obj_predict o = Some p
       /\ fst (p (obj_state o) []) = Raise e.
Proof.
  intros e g s.
  apply (guarded_region_contains_failures g [] s e). reflexivity.
Defined.

(** X11: when the loaded value has no [predict] attribute (the file held
    plain data, or an object of another kind), a prediction shows the
    [AttributeError] message naming the type of the value; nothing is
    invoked and the region ends normally. *)
Theorem value_without_predict_is_reported g df s v :
  g !! "model" = Some v ->
  predict_method (heap s) v = None ->
  fst (guarded_predict g df s) = Ok tt
  /\ ui (snd (guarded_predict g df s)) =
     ui s ++ [(Main, Error ("Ocurrió un error durante la predicción: '"
                            +:+ class_name (heap s) v
                            +:+ "' object has no attribute 'predict'"))]
  /\ calls (snd (guarded_predict g df s)) = calls s
  /\ heap (snd (guarded_predict g df s)) = heap s.
Proof.
  intros Hg Hm. rewrite (guarded_predict_no_method _ _ _ v Hg Hm). repeat split.
Qed.

Lemma value_without_predict_is_reported_witness :
  let g : gmap string pyval := <["model" := VList [VFloat 1.67]]> ∅ in
  let df := df_input_of (VFloat 488.43) (VFloat 200.13) (VFloat 65.04) in
  fst (guarded_predict g df fresh_state) = Ok tt
  /\ ui (snd (guarded_predict g df fresh_state)) =
     [(Main, Error "Ocurrió un error durante la predicción: 'list' object has no attribute 'predict'")]
  /\ calls (snd (guarded_predict g df fresh_state)) = []
  /\ heap (snd (guarded_predict g df fresh_state)) = [].
Proof.
  intros g df.
  apply (value_without_predict_is_reported g df fresh_state (VList [VFloat 1.67]));
    reflexivity.
Defined.

(** X12: when [predict] returns a sequence that starts with a float, the
    region shows the heading, that float formatted to two decimals between
    the label and the percent sign, and the note, in this order; the
    elements after the first are not shown. *)
Theorem first_prediction_is_displayed g df l o p s x rest :
  g !! "model" = Some (VObj l) -> heap s !! l = Some o -> obj_predict o = Some p ->
  fst (p (obj_state o) df) = Ok (VList (VFloat x :: rest)) ->
  fst (guarded_predict g df s) = Ok tt
  /\ ui (snd (guarded_predict g df s)) =
     ui s ++ [(Main, Subheader "📈 Resultado de la Predicción");
              (Main, Success ("**Concentración Predicha:** `"
                              +:+ Fmt.format_2f_SF (Prim2SF x) +:+ "%`"));
              (Main, Info "Este valor representa el porcentaje estimado de la concentración final de silice.")].
Proof.
  intros Hg Hl Hp Hr.
  rewrite (guarded_predict_returned _ _ _ _ _ _ _ Hg Hl Hp Hr). split; reflexivity.
Qed.

Lemma first_prediction_is_displayed_witness :
  let g : gmap string pyval := <["model" := VObj 0%nat]> ∅ in
  let s := bare [stub_returning (VList [VFloat 2.675; VFloat 9.5])] in
  fst (guarded_predict g [] s) = Ok tt
  /\ ui (snd (guarded_predict g [] s)) =
     [(Main, Subheader "📈 Resultado de la Predicción");
      (Main, Success "**Concentración Predicha:** `2.67%`");
      (Main, Info "Este valor representa el porcentaje estimado de la concentración final de silice.")].
Proof.
  intros g s.
  apply (first_prediction_is_displayed g [] 0%nat
           (stub_returning (VList [VFloat 2.675; VFloat 9.5]))
           (fun st _ => (Ok (VList [VFloat 2.675; VFloat 9.5]), st)) s 2.675 [VFloat 9.5]);
    reflexivity.
Defined.

(** ** The block and the names it reads *)

(** X13: in a namespace that binds [Flowrate1], [Flowrate2] and
    [Concentration], the block invokes [predict] once, on a frame of one
    row whose columns are, in this order, [Amina Flow], [Flotation Column
    01 Air Flow] and [% Iron Concentrate], holding the values of the three
    names. *)
Theorem block_builds_the_record g a f c l o p s :
  g !! "Flowrate1" = Some a -> g !! "Flowrate2" = Some f -> g !! "Concentration" = Some c ->
  g !! "model" = Some (VObj l) -> heap s !! l = Some o -> obj_predict o = Some p ->
  calls (snd (prediction_block g s)) =
  calls s ++ [(l, [("Amina Flow", [a]);
                   ("Flotation Column 01 Air Flow", [f]);
                   ("% Iron Concentrate", [c])])].
Proof.
  intros Ha Hf Hc Hg Hl Hp. unfold prediction_block, build_df_input.
  rewrite (bind_ok _ _ s (df_input_of a f c) s).
  - exact (guarded_predict_calls _ _ _ _ _ _ Hg Hl Hp).
  - rewrite (bind_ok _ _ _ _ _ (read_name_bound _ _ _ s Ha)).
    rewrite (bind_ok _ _ _ _ _ (read_name_bound _ _ _ s Hf)).
    now rewrite (bind_ok _ _ _ _ _ (read_name_bound _ _ _ s Hc)).
Qed.

Lemma block_builds_the_record_witness :
  let g := bound_globals 241.7 372.44 68.01 (VObj 0%nat) in
  let s := bare [stub_counting] in
  calls (snd (prediction_block g s)) =
  calls s ++ [(0%nat, [("Amina Flow", [VFloat 241.7]);
                       ("Flotation Column 01 Air Flow", [VFloat 372.44]);
                       ("% Iron Concentrate", [VFloat 68.01])])].
Proof.
  intros g s.
  apply (block_builds_the_record g (VFloat 241.7) (VFloat 372.44) (VFloat 68.01) 0%nat
           stub_counting
           (fun st _ =>
              match st with
              | VInt n => (Ok (VList [VInt (n + 1)]), VInt (n + 1))
              | _ => (Ok (VList [VInt 0]), st)
              end) s);
    reflexivity.
Defined.

(** X14: in a namespace that lacks one of the three names, the block raises
    [NameError] for a name that is unbound, out of the block, and leaves
    the state as it found it: nothing is drawn and nothing invoked. *)
Theorem block_needs_its_names g s :
  g !! "Flowrate1" = None \/ g !! "Flowrate2" = None \/ g !! "Concentration" = None ->
  exists x,
    In x ["Flowrate1"; "Flowrate2"; "Concentration"]
    /\ g !! x = None
    /\ prediction_block g s = (Raise (Exn NameError ("name '" +:+ x +:+ "' is not defined")), s).
Proof.
  intros H. unfold prediction_block, build_df_input.
  destruct (g !! "Flowrate1") as [a |] eqn:Ha.
  - destruct (g !! "Flowrate2") as [f |] eqn:Hf.
    + destruct (g !! "Concentration") as [c |] eqn:Hc.
      * destruct H as [H | [H | H]]; discriminate.
      * exists "Concentration". split; [cbn; tauto |]. split; [exact Hc |].
        apply bind_raise.
        rewrite (bind_ok _ _ _ _ _ (read_name_bound _ _ _ s Ha)).
        rewrite (bind_ok _ _ _ _ _ (read_name_bound _ _ _ s Hf)).
        apply bind_raise. apply (read_name_unbound _ "Concentration"), Hc.
    + exists "Flowrate2". split; [cbn; tauto |]. split; [exact Hf |].
      apply bind_raise.
      rewrite (bind_ok _ _ _ _ _ (read_name_bound _ _ _ s Ha)).
      apply bind_raise. apply (read_name_unbound _ "Flowrate2"), Hf.
  - exists "Flowrate1". split; [cbn; tauto |]. split; [exact Ha |].
    apply bind_raise, bind_raise. apply (read_name_unbound _ "Flowrate1"), Ha.
Qed.

Lemma block_needs_its_names_witness :
  let g : gmap string pyval :=
    <["Flowrate1" := VFloat 488.43]> (script_globals (defaults true) (VObj 0%nat)) in
  exists x,
    In x ["Flowrate1"; "Flowrate2"; "Concentration"]
    /\ g !! x = None
    /\ prediction_block g fresh_state =
       (Raise (Exn NameError ("name '" +:+ x +:+ "' is not defined")), fresh_state).
Proof.
  intros g. apply (block_needs_its_names g fresh_state).
  right. right. reflexivity.
Defined.

(** X15: a prediction, however it ends, leaves the model cache and the
    list of loads as they are and only adds to the page and to the list of
    invocations. *)
Theorem prediction_leaves_the_cache g s :
  cache (snd (prediction_block g s)) = cache s
  /\ loads (snd (prediction_block g s)) = loads s
  /\ (exists out, ui (snd (prediction_block g s)) = ui s ++ out)
  /\ (exists more, calls (snd (prediction_block g s)) = calls s ++ more).
Proof.
  rewrite (framed_prediction_block g s). cbn. repeat split; eauto.
Qed.

(** ** A load that raised *)

(** X17: a load that raised leaves nothing in the cache: the next run calls
    [joblib.load] on the file again, whatever the disk holds by then. *)
Theorem failed_load_is_retried d d' inp inp' s e :
  cache s !! "modelo.joblib" = None ->
  d "modelo.joblib" = Raise e ->
  isinstance e FileNotFoundError = false ->
  cache (snd (script d inp s)) !! "modelo.joblib" = None
  /\ loads (snd (script d' inp' (snd (script d inp s)))) =
     loads s ++ ["modelo.joblib"; "modelo.joblib"].
Proof.
  intros Hc Hd He.
  assert (Hs : script d inp s =
               (Raise e, State (ui s ++ [page_config]) (cache s) (heap s)
                           (loads s ++ ["modelo.joblib"]) (calls s))).
  { rewrite (script_load_failure _ _ _ _ Hc Hd), He. reflexivity. }
  rewrite Hs. cbn [snd cache]. split; [exact Hc |].
  rewrite script_run, load_model_cases. cbn [cache heap loads ui calls]. rewrite Hc.
  destruct (d' "modelo.joblib") as [[o | v] | e']; cbn; try now rewrite <- app_assoc.
  destruct (isinstance e' FileNotFoundError); cbn; now rewrite <- app_assoc.
Qed.

Lemma failed_load_is_retried_witness :
  cache (snd (script corrupt_disk (defaults false) fresh_state)) !! "modelo.joblib" = None
  /\ loads (snd (script (stub_disk (VList [VFloat 1.67])) (defaults true)
                   (snd (script corrupt_disk (defaults false) fresh_state)))) =
     loads fresh_state ++ ["modelo.joblib"; "modelo.joblib"].
Proof.
  apply (failed_load_is_retried corrupt_disk (stub_disk (VList [VFloat 1.67]))
           (defaults false) (defaults true) fresh_state truncated_pickle);
    reflexivity.
Defined.
